(** * hello_world.py: a timestamped markdown greeting

    A shallow embedding of [src/hello_world.py].  The script reads the
    clock twice, formats the first reading into a file name and the second
    into the body of a small markdown document, writes the document with
    [with open(filename, 'w') as f: f.write(content)], and prints the name
    of the file it created.

    Layout of the development:
    - [Text]     strings, decimal rendering, lines, fixed-width patterns;
    - [DateTime] the [datetime] value and [strftime];
    - [Runtime]  the world the script runs in (clock, files, handles,
                 standard output) and a state-and-exception monad;
    - [Hello]    the script itself;
    - [Scenarios] concrete clocks, failures and directories;
    - [Calendar] calendar seconds and their order;
    - facts about each layer, then the properties of the script
      ([Properties], [Further]). *)

From Stdlib Require Import Ascii String List ZArith Lia.
From stdpp Require Import gmap strings fin_maps.

Open Scope string_scope.

(* ===================================================================== *)
(** ** Text *)
(* ===================================================================== *)

Module Text.

(** The line feed, ['\n']. *)
Definition LF : ascii := "010"%char.

(** [chr(ord('0') + d)] *)
Definition digit_char (d : Z) : ascii := ascii_of_N (Z.to_N (48 + d)).

Definition is_digit (c : ascii) : bool :=
  let n := Z.of_N (N_of_ascii c) in ((48 <=? n) && (n <=? 57))%Z.

(** Decimal rendering of a non-negative integer, most significant digit
    first.  The fuel only makes the recursion structural: a number has
    no more decimal digits than binary ones. *)
Fixpoint decimal_go (fuel : nat) (n : Z) (acc : string) : string :=
  match fuel with
  | O => acc
  | S fuel' =>
      let acc' := String (digit_char (n mod 10)) acc in
      if (n <? 10)%Z then acc' else decimal_go fuel' (n / 10) acc'
  end.

Definition decimal (n : Z) : string :=
  decimal_go (S (Z.to_nat (Z.log2 n))) n "".

Fixpoint zeros (k : nat) : string :=
  match k with
  | O => ""
  | S k' => String "0" (zeros k')
  end.

(** What C's [%0<width>d] prints for a non-negative number: at least
    [width] characters, padded with zeros on the left. *)
Definition zero_pad (width : nat) (n : Z) : string :=
  let s := decimal n in zeros (width - String.length s) +:+ s.

(** [str.splitlines] for text whose only line terminator is the line
    feed: every line feed ends a line, and a last line need not be
    terminated. *)
Fixpoint splitlines (s : string) : list string :=
  match s with
  | "" => []
  | String c s' =>
      if Ascii.eqb c LF then "" :: splitlines s'
      else match splitlines s' with
           | [] => [String c ""]
           | l :: ls => String c l :: ls
           end
  end.

(** Number of occurrences of a character. *)
Fixpoint count_char (c : ascii) (s : string) : nat :=
  match s with
  | "" => 0
  | String c' s' => (if Ascii.eqb c c' then 1 else 0) + count_char c s'
  end.

Fixpoint last_char (s : string) : option ascii :=
  match s with
  | "" => None
  | String c "" => Some c
  | String _ s' => last_char s'
  end.


(** Fixed-width patterns: the fragment of regular expressions made of
    literal characters and [\d], enough for
    [hello_world_\d{8}_\d{6}\.md] and for [YYYY-MM-DD HH:MM:SS]. *)
Inductive item : Type :=
| Chr (c : ascii)
| Digit.

Definition item_accepts (i : item) (c : ascii) : bool :=
  match i with
  | Chr c' => Ascii.eqb c' c
  | Digit => is_digit c
  end.



(** Full match, as [re.fullmatch]. *)
Fixpoint fullmatch (p : list item) (s : string) : bool :=
  match p, s with
  | [], "" => true
  | i :: p', String c s' => item_accepts i c && fullmatch p' s'
  | _, _ => false
  end.

(** [s.isdigit()] for ASCII text (true on the empty text, unlike
    Python's). *)
Fixpoint all_digits (s : string) : bool :=
  match s with
  | "" => true
  | String c s' => is_digit c && all_digits s'
  end.

Definition item_is_LF (i : item) : bool :=
  match i with
  | Chr c => Ascii.eqb LF c
  | Digit => false
  end.

(** [int(s)] on a text of decimal digits. *)
Definition digit_value (c : ascii) : Z := (Z.of_N (N_of_ascii c) - 48)%Z.

Fixpoint int_go (v : Z) (s : string) : Z :=
  match s with
  | "" => v
  | String c s' => int_go (10 * v + digit_value c) s'
  end.

Definition int_of_string (s : string) : Z := int_go 0 s.

End Text.

(* ===================================================================== *)
(** ** DateTime *)
(* ===================================================================== *)

Module DateTime.
Import Text.

(** A [datetime.datetime] value (naive, as [datetime.now()] returns). *)
Record datetime : Type := mkDateTime {
  year : Z;
  month : Z;
  day : Z;
  hour : Z;
  minute : Z;
  second : Z;
  microsecond : Z
}.

Definition is_leap (y : Z) : bool :=
  ((y mod 4 =? 0) && (negb (y mod 100 =? 0) || (y mod 400 =? 0)))%Z.

Definition days_in_month (y m : Z) : Z :=
  match m with
  | 2 => if is_leap y then 29 else 28
  | 4 | 6 | 9 | 11 => 30
  | _ => 31
  end%Z.

(** The invariant every [datetime] object satisfies: the constructor of
    the class rejects anything else ([MINYEAR = 1], [MAXYEAR = 9999]). *)
Definition valid_datetime (t : datetime) : Prop :=
  (1 <= year t <= 9999 /\
   1 <= month t <= 12 /\
   1 <= day t <= days_in_month (year t) (month t) /\
   0 <= hour t < 24 /\
   0 <= minute t < 60 /\
   0 <= second t < 60 /\
   0 <= microsecond t < 1000000)%Z.

(** One [strftime] directive, as the C library behind the method prints
    it.  Only the directives the script uses are interpreted.  [%Y] is
    the year in decimal and is not padded: a year below 1000 has fewer
    than four digits ([987], [1]).  The others are two digits, padded
    with a zero. *)
Definition directive (d : ascii) (t : datetime) : string :=
  match d with
  | "Y"%char => decimal (year t)
  | "m"%char => zero_pad 2 (month t)
  | "d"%char => zero_pad 2 (day t)
  | "H"%char => zero_pad 2 (hour t)
  | "M"%char => zero_pad 2 (minute t)
  | "S"%char => zero_pad 2 (second t)
  | "%"%char => "%"
  | _ => String "%" (String d "")
  end.

(** [t.strftime(fmt)]: directives are replaced, every other character is
    copied. *)
Fixpoint strftime (fmt : string) (t : datetime) : string :=
  match fmt with
  | "" => ""
  | String c rest =>
      match Ascii.eqb c "%", rest with
      | true, String d rest' => directive d t +:+ strftime rest' t
      | _, _ => String c (strftime rest t)
      end
  end.

End DateTime.

(* ===================================================================== *)
(** ** Runtime *)
(* ===================================================================== *)

Module Runtime.
Import Text DateTime.

(** The exceptions the script can meet: [OSError] with its [errno]
    (permission denied, no space left, no such directory, ...) from
    [open] and [write], and [ValueError] from an operation on a file
    object that is closed. *)
Inductive exn : Type :=
| OSError (errno : Z)
| ValueError.

Definition EACCES : Z := 13.
Definition ENOSPC : Z := 28.
Definition ENOENT : Z := 2.

Inductive result (A : Type) : Type :=
| Ok (a : A)
| Raise (e : exn).
Arguments Ok {A} a.
Arguments Raise {A} e.

(** What the script cannot control.  Every interaction with the system
    (a clock reading, an [open], a [write]) is one step; the environment
    says, for the interaction at step [n], what the clock shows, whether
    [open] fails, and whether [write] fails and after how many
    characters have reached the file. *)
Record Env : Type := mkEnv {
  now_at : nat -> datetime;
  open_fault : nat -> option Z;
  write_fault : nat -> option (nat * Z)
}.

(** The state the script acts on: the files of the working directory
    (name to content), the open file descriptors (descriptor to name),
    and what has been printed on standard output. *)
Record World : Type := mkWorld {
  step : nat;
  files : gmap string string;
  handles : gmap nat string;
  stdout : string
}.

Definition tick (w : World) : World :=
  mkWorld (S (step w)) (files w) (handles w) (stdout w).

(** Computations: state passing, with exceptions.  The state survives an
    exception, as the effects of a Python statement do. *)
Definition M (A : Type) : Type := World -> result A * World.

Definition ret {A} (a : A) : M A := fun w => (Ok a, w).

Definition bind {A B} (m : M A) (k : A -> M B) : M B :=
  fun w =>
    match m w with
    | (Ok a, w') => k a w'
    | (Raise e, w') => (Raise e, w')
    end.

Definition raise {A} (e : exn) : M A := fun w => (Raise e, w).

Declare Scope py_scope.
Delimit Scope py_scope with py.
Notation "x <- m ;; k" := (bind m (fun x => k))
  (at level 100, m at next level, right associativity) : py_scope.
Notation "m ;;; k" := (bind m (fun _ => k))
  (at level 100, right associativity) : py_scope.

Section Operations.
Variable E : Env.

(** [datetime.now()] *)
Definition datetime_now : M datetime :=
  fun w => (Ok (now_at E (step w)), tick w).

(** [open(path, 'w')]: creates the file, or truncates it when it
    exists, and returns a descriptor that was not in use. *)
Definition open_w (path : string) : M nat :=
  fun w =>
    match open_fault E (step w) with
    | Some errno => (Raise (OSError errno), tick w)
    | None =>
        let fd := fresh (dom (handles w)) in
        (Ok fd,
         mkWorld (S (step w)) (<[path := ""]> (files w))
                 (<[fd := path]> (handles w)) (stdout w))
    end.

(** [f.write(s)]: appends [s] at the position of the descriptor, which
    for a file opened with ['w'] and written sequentially is its end;
    returns the number of characters written.  When the write fails,
    the characters that reached the file before the failure stay
    there.  Buffering is not modelled: the failure of the flush that
    [close] performs is reported here. *)
Definition write (fd : nat) (s : string) : M nat :=
  fun w =>
    match handles w !! fd with
    | None => (Raise ValueError, w)
    | Some path =>
        match write_fault E (step w) with
        | Some (k, errno) =>
            (Raise (OSError errno),
             mkWorld (S (step w))
                     (alter (fun c => c +:+ substring 0 k s) path (files w))
                     (handles w) (stdout w))
        | None =>
            (Ok (String.length s),
             mkWorld (S (step w))
                     (alter (fun c => c +:+ s) path (files w))
                     (handles w) (stdout w))
        end
    end.

(** [f.close()] *)
Definition close (fd : nat) : M unit :=
  fun w =>
    (Ok tt, mkWorld (step w) (files w) (delete fd (handles w)) (stdout w)).

(** [with open(path, 'w') as f: body]: when [open] raises there is
    nothing to release; otherwise the file object is closed when the
    body is left, normally or by an exception, and the exception of
    the body is raised again. *)
Definition with_open_w {A} (path : string) (body : nat -> M A) : M A :=
  fun w =>
    match open_w path w with
    | (Raise e, w1) => (Raise e, w1)
    | (Ok f, w1) =>
        let '(r, w2) := body f w1 in
        let '(_, w3) := close f w2 in
        (r, w3)
    end.

(** [print(s)]: the text and a line feed on standard output. *)
Definition print (s : string) : M unit :=
  fun w =>
    (Ok tt,
     mkWorld (step w) (files w) (handles w)
             (stdout w +:+ s +:+ String LF "")).

End Operations.

End Runtime.

(* ===================================================================== *)
(** ** The script *)
(* ===================================================================== *)

Module Hello.
Import Text DateTime Runtime.
Local Open Scope py_scope.

Definition nl : string := String LF "".

(** Lines 8-9: the file name made from a clock reading. *)
Definition filename_at (t : datetime) : string :=
  let timestamp := strftime "%Y%m%d_%H%M%S" t in
  "hello_world_" +:+ timestamp +:+ ".md".

(** Lines 11-16: the triple-quoted f-string, with the clock reading it
    interpolates. *)
Definition content_at (t : datetime) : string :=
  "# Hello World" +:+ nl +:+
  nl +:+
  "Generated at: " +:+ strftime "%Y-%m-%d %H:%M:%S" t +:+ nl +:+
  nl +:+
  "**Message:** Hello World!" +:+ nl.

Section Script.
Variable E : Env.

Definition create_hello_world_file : M string :=
  t1 <- datetime_now E ;;
  let filename := filename_at t1 in
  t2 <- datetime_now E ;;
  let content := content_at t2 in
  with_open_w E filename (fun f => write E f content) ;;;
  ret filename.

(** The [__main__] block. *)
Definition main : M unit :=
  created_file <- create_hello_world_file ;;
  print ("Created file: " +:+ created_file).

End Script.

(** The process: an exception nobody catches ends the interpreter with
    exit status 1 (after a traceback on standard error, not modelled);
    otherwise the status is 0. *)
Record outcome : Type := mkOutcome {
  exit_status : Z;
  uncaught : option exn;
  final : World
}.

Definition run_script (E : Env) (w : World) : outcome :=
  match main E w with
  | (Ok _, w') => mkOutcome 0 None w'
  | (Raise e, w') => mkOutcome 1 (Some e) w'
  end.


(** *** Vocabulary of the properties *)




(** The clock readings and the steps of one call that starts in [w]. *)
Definition T1 (E : Env) (w : World) : datetime := now_at E (step w).
Definition T2 (E : Env) (w : World) : datetime := now_at E (S (step w)).
Definition open_step (w : World) : nat := S (S (step w)).
Definition write_step (w : World) : nat := S (S (S (step w))).

(** A call meets no failure when neither its [open] nor its [write]
    fails. *)
Definition no_fault (E : Env) (w : World) : Prop :=
  open_fault E (open_step w) = None /\ write_fault E (write_step w) = None.

(** The three parts of the content. *)
Definition heading : string := "# Hello World".
Definition greeting : string := "**Message:** Hello World!".

Definition generated_line (t : datetime) : string :=
  "Generated at: " +:+ strftime "%Y-%m-%d %H:%M:%S" t.

End Hello.

(* ===================================================================== *)
(** ** Scenarios *)
(* ===================================================================== *)

Module Scenarios.
Import Text DateTime Runtime Hello.

Definition t_example : datetime := mkDateTime 2024 3 15 10 30 45 0.
Definition t_next : datetime := mkDateTime 2024 3 15 10 30 46 0.

Definition example_filename : string := "hello_world_20240315_103045.md".

Definition example_content : string :=
  "# Hello World" +:+ nl +:+
  nl +:+
  "Generated at: 2024-03-15 10:30:45" +:+ nl +:+
  nl +:+
  "**Message:** Hello World!" +:+ nl.

(** An empty working directory, nothing open, nothing printed. *)
Definition w_empty : World := mkWorld 0 ∅ ∅ "".

(** A clock that stands still and a system that never fails. *)
Definition E_fixed : Env :=
  mkEnv (fun _ => t_example) (fun _ => None) (fun _ => None).

(** The clock passes to the next second after the fifth interaction:
    two calls in a row read 10:30:45, 10:30:45 and then 10:30:45,
    10:30:46. *)
Definition E_next_second : Env :=
  mkEnv (fun n => if (n <? 5)%nat then t_example else t_next)
        (fun _ => None) (fun _ => None).

(** The disk fills up: every [write] fails once five characters have
    reached the file. *)
Definition E_disk_full : Env :=
  mkEnv (fun _ => t_example) (fun _ => None) (fun _ => Some (5, ENOSPC)).

(** Every [write] fails before a single character has reached the
    file. *)
Definition E_write_refused : Env :=
  mkEnv (fun _ => t_example) (fun _ => None) (fun _ => Some (0, ENOSPC)).

(** A directory where the file of the example exists already. *)
Definition w_existing : World :=
  mkWorld 0 {[example_filename := "earlier content"]} ∅ "".

(** The working directory is not writable: every [open] fails. *)
Definition E_read_only : Env :=
  mkEnv (fun _ => t_example) (fun _ => Some EACCES) (fun _ => None).

End Scenarios.

(* ===================================================================== *)
(** ** Calendar seconds *)
(* ===================================================================== *)

Module Calendar.
Import DateTime.

(** Two readings fall in the same calendar second when they agree on
    every field but the microsecond. *)
Definition same_second (t1 t2 : datetime) : Prop :=
  year t1 = year t2 /\ month t1 = month t2 /\ day t1 = day t2 /\
  hour t1 = hour t2 /\ minute t1 = minute t2 /\ second t1 = second t2.

(** Lexicographic chaining: the first comparison decides unless it is
    [Eq]. *)
Definition lex (c1 c2 : comparison) : comparison :=
  match c1 with
  | Eq => c2
  | _ => c1
  end.

(** The order of [datetime] values, microseconds left out: by year, then
    month, day, hour, minute and second, as the class compares them. *)
Definition compare_seconds (t1 t2 : datetime) : comparison :=
  lex (year t1 ?= year t2)%Z
    (lex (month t1 ?= month t2)%Z
       (lex (day t1 ?= day t2)%Z
          (lex (hour t1 ?= hour t2)%Z
             (lex (minute t1 ?= minute t2)%Z
                (second t1 ?= second t2)%Z)))).




End Calendar.

(* ===================================================================== *)
(** ** More scenarios *)
(* ===================================================================== *)

Module Later.
Import Text DateTime Runtime Hello Scenarios.

Definition next_filename : string := "hello_world_20240315_103046.md".

(** The clock passes to the next second between two calls: the first
    call reads 10:30:45 twice, the second 10:30:46 twice. *)
Definition E_second_per_call : Env :=
  mkEnv (fun n => if (n <? 4)%nat then t_example else t_next)
        (fun _ => None) (fun _ => None).

(** The clock passes to the next second between the two readings of a
    call. *)
Definition E_between_readings : Env :=
  mkEnv (fun n => if (n <? 1)%nat then t_example else t_next)
        (fun _ => None) (fun _ => None).

(** A directory with a file the script has nothing to do with. *)
Definition w_notes : World :=
  mkWorld 0 {["notes.txt" := "keep me"]} ∅ "".




End Later.

(* ===================================================================== *)
(** ** Facts about text *)
(* ===================================================================== *)

Module TextFacts.
Import Text.

Lemma digit_char_is_digit (d : Z) :
  (0 <= d < 10)%Z -> is_digit (digit_char d) = true.
Proof.
  intros Hd.
  assert (Hcases : (d = 0 \/ d = 1 \/ d = 2 \/ d = 3 \/ d = 4 \/
                    d = 5 \/ d = 6 \/ d = 7 \/ d = 8 \/ d = 9)%Z) by lia.
  repeat (destruct Hcases as [-> | Hcases]; [reflexivity | ]).
  subst d. reflexivity.
Qed.

Lemma is_digit_not_LF (c : ascii) : is_digit c = true -> Ascii.eqb LF c = false.
Proof.
  intros Hc. destruct (Ascii.eqb_spec LF c) as [Heq | Hne].
  - subst c. discriminate Hc.
  - reflexivity.
Qed.

(** stdpp keeps [String.append] folded under [simpl]; these two
    equations unfold it one step on demand. *)
Lemma append_cons (x : ascii) (a b : string) :
  String x a +:+ b = String x (a +:+ b).
Proof. reflexivity. Qed.

Lemma append_nil_l (b : string) : "" +:+ b = b.
Proof. reflexivity. Qed.

Create Rewrite HintDb str.
#[export] Hint Rewrite append_cons append_nil_l : str.

Ltac str_induction a :=
  induction a as [ | ? a ?IH]; autorewrite with str; simpl.

Lemma append_assoc (a b c : string) : (a +:+ b) +:+ c = a +:+ (b +:+ c).
Proof. str_induction a; [reflexivity | now rewrite IH]. Qed.

Lemma append_nil_r (a : string) : a +:+ "" = a.
Proof. str_induction a; [reflexivity | now rewrite IH]. Qed.

Lemma length_append (a b : string) :
  String.length (a +:+ b) = String.length a + String.length b.
Proof. str_induction a; [reflexivity | now rewrite IH]. Qed.

Lemma all_digits_append (a b : string) :
  all_digits (a +:+ b) = all_digits a && all_digits b.
Proof.
  str_induction a; [reflexivity | ].
  rewrite IH. now rewrite andb_assoc.
Qed.

Lemma all_digits_zeros (k : nat) : all_digits (zeros k) = true.
Proof. induction k as [ | k IH]; simpl; [reflexivity | exact IH]. Qed.

Lemma length_zeros (k : nat) : String.length (zeros k) = k.
Proof. induction k as [ | k IH]; simpl; [reflexivity | now rewrite IH]. Qed.

(** Whatever the number and the fuel, [decimal_go] only adds digits. *)
Lemma all_digits_decimal_go (fuel : nat) :
  forall n acc, all_digits acc = true ->
                all_digits (decimal_go fuel n acc) = true.
Proof.
  induction fuel as [ | fuel IH]; intros n acc Hacc; simpl; [exact Hacc | ].
  assert (Hd : is_digit (digit_char (n mod 10)) = true).
  { apply digit_char_is_digit. apply Z.mod_pos_bound. lia. }
  destruct (n <? 10)%Z.
  - simpl. now rewrite Hd.
  - apply IH. simpl. now rewrite Hd.
Qed.

Lemma all_digits_zero_pad (width : nat) (n : Z) :
  all_digits (zero_pad width n) = true.
Proof.
  unfold zero_pad, decimal. rewrite all_digits_append, all_digits_zeros.
  rewrite andb_true_l. now apply all_digits_decimal_go.
Qed.

Lemma all_digits_decimal (n : Z) : all_digits (decimal n) = true.
Proof. unfold decimal. now apply all_digits_decimal_go. Qed.

Lemma count_char_append (c : ascii) (a b : string) :
  count_char c (a +:+ b) = count_char c a + count_char c b.
Proof. str_induction a; [reflexivity | rewrite IH; lia]. Qed.

Lemma all_digits_no_LF (s : string) :
  all_digits s = true -> count_char LF s = 0.
Proof.
  induction s as [ | c s IH]; cbn [count_char all_digits]; [reflexivity | ].
  intros [Hc Hs]%andb_true_iff.
  rewrite (is_digit_not_LF c Hc). now rewrite IH.
Qed.

Lemma zero_pad_no_LF (width : nat) (n : Z) :
  count_char LF (zero_pad width n) = 0.
Proof. apply all_digits_no_LF, all_digits_zero_pad. Qed.

Lemma decimal_no_LF (n : Z) : count_char LF (decimal n) = 0.
Proof. apply all_digits_no_LF, all_digits_decimal. Qed.

(** A number below [10^k] has at most [k] decimal digits. *)
Lemma length_decimal_go (fuel : nat) :
  forall n acc k,
    (0 <= n < 10 ^ Z.of_nat (S k))%Z ->
    String.length (decimal_go fuel n acc) <= S k + String.length acc.
Proof.
  induction fuel as [ | fuel IH]; intros n acc k Hn; simpl; [lia | ].
  destruct (Z.ltb_spec n 10) as [Hlt | Hge]; simpl; [lia | ].
  destruct k as [ | k].
  - change (10 ^ Z.of_nat 1)%Z with 10%Z in Hn. lia.
  - specialize (IH (n / 10)%Z (String (digit_char (n mod 10)) acc) k).
    simpl in IH. etransitivity; [apply IH | ]; [ | lia].
    rewrite Nat2Z.inj_succ, Z.pow_succ_r in Hn by lia.
    split; [apply Z.div_pos; lia | ].
    apply Z.div_lt_upper_bound; lia.
Qed.

Lemma length_zero_pad (width : nat) (n : Z) :
  (0 <= n < 10 ^ Z.of_nat (S width))%Z ->
  String.length (zero_pad (S width) n) = S width.
Proof.
  intros Hn. unfold zero_pad, decimal.
  pose proof (length_decimal_go (S (Z.to_nat (Z.log2 n))) n "" width Hn) as Hle.
  rewrite length_append, length_zeros.
  change (String.length "") with 0 in Hle. lia.
Qed.

Lemma all_digits_count (c : ascii) (s : string) :
  is_digit c = false -> all_digits s = true -> count_char c s = 0.
Proof.
  intros Hc. induction s as [ | x s IH]; cbn [count_char all_digits];
    [reflexivity | ].
  intros [Hx Hs]%andb_true_iff.
  destruct (Ascii.eqb_spec c x) as [-> | _]; [congruence | now apply IH].
Qed.

(** *** Reading a rendering back

    [decimal] and [zero_pad] print the number they are given: [int]
    recovers it. *)

Lemma digit_value_digit_char (d : Z) :
  (0 <= d < 10)%Z -> digit_value (digit_char d) = d.
Proof.
  intros Hd.
  assert (Hcases : (d = 0 \/ d = 1 \/ d = 2 \/ d = 3 \/ d = 4 \/
                    d = 5 \/ d = 6 \/ d = 7 \/ d = 8 \/ d = 9)%Z) by lia.
  repeat (destruct Hcases as [-> | Hcases]; [reflexivity | ]).
  subst d. reflexivity.
Qed.

Lemma int_go_append (a : string) :
  forall v b, int_go v (a +:+ b) = int_go (int_go v a) b.
Proof.
  induction a as [ | c a IH]; intros v b; [reflexivity | ].
  rewrite append_cons. cbn [int_go]. apply IH.
Qed.

Lemma decimal_go_acc (fuel : nat) :
  forall n acc, decimal_go fuel n acc = decimal_go fuel n "" +:+ acc.
Proof.
  induction fuel as [ | fuel IH]; intros n acc; cbn [decimal_go];
    [reflexivity | ].
  destruct (n <? 10)%Z; [reflexivity | ].
  rewrite (IH _ (String _ acc)), (IH _ (String _ "")).
  now rewrite append_assoc.
Qed.

Lemma int_decimal_go (fuel : nat) :
  forall n, (0 <= n < 2 ^ Z.of_nat fuel)%Z ->
            int_go 0 (decimal_go fuel n "") = n.
Proof.
  induction fuel as [ | fuel IH]; intros n Hn; cbn [decimal_go].
  - change (2 ^ Z.of_nat 0)%Z with 1%Z in Hn. cbn [int_go]. lia.
  - pose proof (Z.mod_pos_bound n 10 ltac:(lia)) as Hmod.
    rewrite Nat2Z.inj_succ, Z.pow_succ_r in Hn by lia.
    destruct (Z.ltb_spec n 10) as [Hlt | Hge].
    + cbn [int_go]. rewrite digit_value_digit_char by exact Hmod.
      rewrite Z.mod_small; lia.
    + rewrite decimal_go_acc, int_go_append, IH.
      * cbn [int_go]. rewrite digit_value_digit_char by exact Hmod.
        pose proof (Z.div_mod n 10 ltac:(lia)). lia.
      * split; [apply Z.div_pos; lia | ].
        apply Z.div_lt_upper_bound; lia.
Qed.

Lemma int_decimal (n : Z) : (0 <= n)%Z -> int_of_string (decimal n) = n.
Proof.
  intros Hn. unfold int_of_string, decimal. apply int_decimal_go.
  split; [exact Hn | ].
  rewrite Nat2Z.inj_succ, Z2Nat.id by apply Z.log2_nonneg.
  destruct (Z.eq_dec n 0%Z) as [-> | Hne]; [reflexivity | ].
  apply Z.log2_spec. lia.
Qed.

Lemma int_go_zeros (k : nat) : int_go 0 (zeros k) = 0%Z.
Proof. induction k as [ | k IH]; [reflexivity | exact IH]. Qed.

Lemma int_zero_pad (width : nat) (n : Z) :
  (0 <= n)%Z -> int_of_string (zero_pad width n) = n.
Proof.
  intros Hn. unfold zero_pad, int_of_string.
  rewrite int_go_append, int_go_zeros. now apply int_decimal.
Qed.

(** *** Patterns *)





(** A text matched by a pattern without line feed has no line feed. *)
Lemma fullmatch_no_LF (p : list item) :
  forall s,
    existsb item_is_LF p = false -> fullmatch p s = true ->
    count_char LF s = 0.
Proof.
  induction p as [ | i p IH]; intros [ | c s] Hp Hm;
    try discriminate Hm; [reflexivity | ].
  cbn [existsb fullmatch count_char] in *.
  apply orb_false_iff in Hp as [Hi Hp].
  apply andb_true_iff in Hm as [Hc Hm].
  rewrite (IH s Hp Hm), Nat.add_0_r.
  destruct i as [c' | ]; cbn [item_is_LF item_accepts] in *.
  - apply Ascii.eqb_eq in Hc. subst c'. now rewrite Hi.
  - now rewrite (is_digit_not_LF c Hc).
Qed.

(** *** Lines and substrings *)

Lemma splitlines_line (l rest : string) :
  count_char LF l = 0 ->
  splitlines (l +:+ String LF rest) = l :: splitlines rest.
Proof.
  induction l as [ | c l IH]; intros Hl.
  - rewrite append_nil_l. cbn [splitlines]. now rewrite Ascii.eqb_refl.
  - rewrite append_cons. cbn [splitlines count_char] in *.
    rewrite Ascii.eqb_sym.
    destruct (Ascii.eqb LF c); [discriminate Hl | ].
    now rewrite IH.
Qed.



Lemma last_char_append_cons (a : string) (c : ascii) (b : string) :
  last_char (a +:+ String c b) = last_char (String c b).
Proof.
  induction a as [ | x a IH]; [reflexivity | ].
  rewrite append_cons. cbn [last_char].
  destruct (a +:+ String c b) eqn:Hab; [ | exact IH].
  destruct a; discriminate Hab.
Qed.

(** The first [k] characters of a text are a prefix of it. *)
Lemma prefix_substring (s : string) :
  forall k, String.prefix (substring 0 k s) s = true.
Proof.
  induction s as [ | c s IH]; intros [ | k]; try reflexivity.
  cbn [substring String.prefix].
  destruct (ascii_dec c c) as [_ | Hne]; [apply IH | now destruct Hne].
Qed.



End TextFacts.

(* ===================================================================== *)
(** ** Facts about the order of texts *)
(* ===================================================================== *)

Module OrderFacts.
Import Text Calendar TextFacts.

Lemma lex_Eq_r (c : comparison) : lex c Eq = c.
Proof. now destruct c. Qed.

Lemma lex_Eq_iff (c1 c2 : comparison) :
  lex c1 c2 = Eq <-> c1 = Eq /\ c2 = Eq.
Proof. destruct c1; cbn [lex]; intuition congruence. Qed.

Lemma string_compare_refl (s : string) : String.compare s s = Eq.
Proof.
  induction s as [ | c s IH]; cbn [String.compare]; [reflexivity | ].
  unfold Ascii.compare. now rewrite N.compare_refl.
Qed.

(** Texts with first parts of the same length compare part by part. *)
Lemma string_compare_append (a1 : string) :
  forall a2 b1 b2,
    String.length a1 = String.length a2 ->
    String.compare (a1 +:+ b1) (a2 +:+ b2) =
    lex (String.compare a1 a2) (String.compare b1 b2).
Proof.
  induction a1 as [ | c1 a1 IH]; intros [ | c2 a2] b1 b2 Hlen;
    try discriminate Hlen; [reflexivity | ].
  rewrite !append_cons. cbn [String.compare].
  destruct (Ascii.compare c1 c2); [ | reflexivity | reflexivity].
  apply IH. now injection Hlen.
Qed.

Lemma ascii_compare_digit_value (c1 c2 : ascii) :
  Ascii.compare c1 c2 = (digit_value c1 ?= digit_value c2)%Z.
Proof.
  unfold Ascii.compare, digit_value. rewrite <- N2Z.inj_compare.
  destruct (Z.compare_spec (Z.of_N (N_of_ascii c1)) (Z.of_N (N_of_ascii c2)));
    symmetry;
    [apply Z.compare_eq_iff | apply Z.compare_lt_iff | apply Z.compare_gt_iff];
    lia.
Qed.

Lemma is_digit_value (c : ascii) :
  is_digit c = true -> (0 <= digit_value c <= 9)%Z.
Proof. unfold is_digit, digit_value. cbv zeta. lia. Qed.

(** The value read from a text continues the value read so far. *)
Lemma int_go_split (s : string) :
  forall v,
    int_go v s = (v * 10 ^ Z.of_nat (String.length s) + int_go 0 s)%Z.
Proof.
  induction s as [ | c s IH]; intros v; cbn [int_go String.length].
  - change (10 ^ Z.of_nat 0)%Z with 1%Z. lia.
  - rewrite (IH (10 * v + digit_value c)%Z), (IH (10 * 0 + digit_value c)%Z).
    rewrite Nat2Z.inj_succ, Z.pow_succ_r by lia. lia.
Qed.

Lemma int_go_bound (s : string) :
  all_digits s = true ->
  (0 <= int_go 0 s < 10 ^ Z.of_nat (String.length s))%Z.
Proof.
  induction s as [ | c s IH]; cbn [all_digits int_go String.length].
  - intros _. change (10 ^ Z.of_nat 0)%Z with 1%Z. lia.
  - intros [Hc Hs]%andb_true_iff.
    specialize (IH Hs). apply is_digit_value in Hc.
    rewrite int_go_split, Nat2Z.inj_succ, Z.pow_succ_r by lia. nia.
Qed.

(** Texts of digits of the same length are ordered as the numbers they
    spell. *)
Lemma compare_digit_strings (s : string) :
  forall t,
    all_digits s = true -> all_digits t = true ->
    String.length s = String.length t ->
    String.compare s t = (int_of_string s ?= int_of_string t)%Z.
Proof.
  unfold int_of_string.
  induction s as [ | c1 s IH]; intros [ | c2 t] Hs Ht Hlen;
    try discriminate Hlen; [reflexivity | ].
  cbn [all_digits String.length] in *.
  apply andb_true_iff in Hs as [Hc1 Hs].
  apply andb_true_iff in Ht as [Hc2 Ht].
  injection Hlen as Hlen.
  cbn [String.compare int_go].
  rewrite (int_go_split s), (int_go_split t), <- Hlen.
  pose proof (int_go_bound s Hs) as Bs.
  pose proof (int_go_bound t Ht) as Bt. rewrite <- Hlen in Bt.
  rewrite ascii_compare_digit_value, (IH t Hs Ht Hlen).
  set (k := (10 ^ Z.of_nat (String.length s))%Z) in *.
  set (x := int_go 0 s) in *. set (y := int_go 0 t) in *.
  set (d1 := digit_value c1). set (d2 := digit_value c2).
  destruct (Z.compare_spec d1 d2) as [Hd | Hd | Hd].
  - rewrite Hd.
    destruct (Z.compare_spec x y); symmetry;
      [apply Z.compare_eq_iff | apply Z.compare_lt_iff
      | apply Z.compare_gt_iff]; nia.
  - symmetry. apply Z.compare_lt_iff. nia.
  - symmetry. apply Z.compare_gt_iff. nia.
Qed.

(** Zero-padded numbers of the same width are ordered as the numbers. *)
Lemma compare_zero_pad (width : nat) (n m : Z) :
  (0 <= n < 10 ^ Z.of_nat (S width))%Z ->
  (0 <= m < 10 ^ Z.of_nat (S width))%Z ->
  String.compare (zero_pad (S width) n) (zero_pad (S width) m) = (n ?= m)%Z.
Proof.
  intros Hn Hm.
  rewrite compare_digit_strings.
  - now rewrite !int_zero_pad by lia.
  - apply all_digits_zero_pad.
  - apply all_digits_zero_pad.
  - now rewrite !length_zero_pad.
Qed.

(** Unpadded numbers with as many digits are ordered as the numbers. *)
Lemma compare_decimal (n m : Z) :
  (0 <= n)%Z -> (0 <= m)%Z ->
  String.length (decimal n) = String.length (decimal m) ->
  String.compare (decimal n) (decimal m) = (n ?= m)%Z.
Proof.
  intros Hn Hm Hlen.
  rewrite compare_digit_strings by (apply all_digits_decimal || exact Hlen).
  now rewrite !int_decimal.
Qed.

(** A number from 1000 to 9999 has exactly four digits. *)
Lemma length_decimal_four (n : Z) :
  (1000 <= n <= 9999)%Z -> String.length (decimal n) = 4.
Proof.
  intros Hn.
  assert (Hup : String.length (decimal n) <= 4).
  { unfold decimal.
    pose proof (length_decimal_go (S (Z.to_nat (Z.log2 n))) n "" 3) as H.
    change (10 ^ Z.of_nat 4)%Z with 10000%Z in H.
    change (String.length "") with 0 in H. lia. }
  pose proof (int_go_bound (decimal n) (all_digits_decimal n)) as Hlow.
  fold (int_of_string (decimal n)) in Hlow.
  rewrite int_decimal in Hlow by lia.
  destruct (le_lt_dec (String.length (decimal n)) 3) as [Hle | Hgt];
    [exfalso | lia].
  assert (Hpow : (10 ^ Z.of_nat (String.length (decimal n)) <= 10 ^ 3)%Z)
    by (apply Z.pow_le_mono_r; lia).
  change (10 ^ 3)%Z with 1000%Z in Hpow. lia.
Qed.

(** A number below 1000 has fewer. *)
Lemma length_decimal_short (n : Z) :
  (0 <= n < 1000)%Z -> String.length (decimal n) <= 3.
Proof.
  intros Hn. unfold decimal.
  pose proof (length_decimal_go (S (Z.to_nat (Z.log2 n))) n "" 2) as H.
  change (10 ^ Z.of_nat 3)%Z with 1000%Z in H.
  change (String.length "") with 0 in H. lia.
Qed.

End OrderFacts.

(* ===================================================================== *)
(** ** Facts about timestamps *)
(* ===================================================================== *)

Module DateTimeFacts.
Import Text DateTime Hello Calendar TextFacts OrderFacts.

Lemma days_in_month_le (y m : Z) : (days_in_month y m <= 31)%Z.
Proof.
  unfold days_in_month. destruct (is_leap y);
    repeat match goal with
           | |- context [match ?x with _ => _ end] => destruct x
           end; lia.
Qed.

(** The two formats of the script, directive by directive. *)
Lemma strftime_file_stamp (t : datetime) :
  strftime "%Y%m%d_%H%M%S" t =
  decimal (year t) +:+ zero_pad 2 (month t) +:+ zero_pad 2 (day t) +:+
  "_" +:+
  zero_pad 2 (hour t) +:+ zero_pad 2 (minute t) +:+ zero_pad 2 (second t).
Proof.
  rewrite <- (append_nil_r (zero_pad 2 (second t))). reflexivity.
Qed.

Lemma strftime_display_stamp (t : datetime) :
  strftime "%Y-%m-%d %H:%M:%S" t =
  decimal (year t) +:+ "-" +:+ zero_pad 2 (month t) +:+ "-" +:+
  zero_pad 2 (day t) +:+ " " +:+
  zero_pad 2 (hour t) +:+ ":" +:+ zero_pad 2 (minute t) +:+ ":" +:+
  zero_pad 2 (second t).
Proof.
  rewrite <- (append_nil_r (zero_pad 2 (second t))). reflexivity.
Qed.

Lemma valid_field_bounds (t : datetime) :
  valid_datetime t ->
  (0 <= year t)%Z /\
  (0 <= month t < 10 ^ Z.of_nat 2)%Z /\
  (0 <= day t < 10 ^ Z.of_nat 2)%Z /\
  (0 <= hour t < 10 ^ Z.of_nat 2)%Z /\
  (0 <= minute t < 10 ^ Z.of_nat 2)%Z /\
  (0 <= second t < 10 ^ Z.of_nat 2)%Z.
Proof.
  intros (Hy & Hm & Hd & Hh & Hmi & Hs & _).
  pose proof (days_in_month_le (year t) (month t)).
  change (10 ^ Z.of_nat 2)%Z with 100%Z. lia.
Qed.

Section Valid.
Variable t : datetime.
Hypothesis Ht : valid_datetime t.






(** From the year 1000 on, the year takes its four places. *)
Hypothesis Hyear : (1000 <= year t)%Z.

Lemma length_year : String.length (decimal (year t)) = 4.
Proof. apply length_decimal_four. destruct Ht as (Hy & _). lia. Qed.








End Valid.

(** Also outside the range of [datetime], a timestamp never contains a
    line feed. *)
Lemma file_stamp_no_LF (t : datetime) :
  count_char LF (strftime "%Y%m%d_%H%M%S" t) = 0.
Proof.
  rewrite strftime_file_stamp.
  rewrite !count_char_append, decimal_no_LF, !zero_pad_no_LF. reflexivity.
Qed.


End DateTimeFacts.

(* ===================================================================== *)
(** ** Facts about the script *)
(* ===================================================================== *)

Module HelloFacts.
Import Text DateTime Runtime Hello TextFacts DateTimeFacts.

(** *** Scoped acquisition *)

(** A successful [open] puts a descriptor that was free in use. *)
Lemma open_w_acquires (E : Env) (path : string) (w w1 : World) (fd : nat) :
  open_w E path w = (Ok fd, w1) ->
  handles w !! fd = None /\ handles w1 !! fd = Some path.
Proof.
  unfold open_w. destruct (open_fault E (step w)); [discriminate | ].
  intros [= <- <-]. cbn [handles].
  split; [apply not_elem_of_dom, is_fresh | apply lookup_insert_eq].
Qed.

Lemma write_keeps_handles (E : Env) (fd : nat) (s : string) (w : World) :
  handles (snd (write E fd s w)) = handles w.
Proof.
  unfold write. destruct (handles w !! fd); [ | reflexivity].
  now destruct (write_fault E (step w)) as [[k errno] | ].
Qed.

(** Whatever the body does, as long as it opens and closes nothing
    itself, the [with] statement leaves the descriptors as it found
    them: also when [open] fails, and also when the body raises. *)
Lemma with_open_w_releases {A} (E : Env) (path : string)
    (body : nat -> M A) (w : World) :
  (forall f w1, handles (snd (body f w1)) = handles w1) ->
  handles (snd (with_open_w E path body w)) = handles w.
Proof.
  intros Hbody. unfold with_open_w, open_w.
  destruct (open_fault E (step w)) as [errno | ]; [reflexivity | ].
  match goal with
  | |- context [body ?f ?w1] =>
      specialize (Hbody f w1); destruct (body f w1) as [r w2]
  end.
  cbn [snd close handles] in *. rewrite Hbody.
  apply delete_insert_id, not_elem_of_dom, is_fresh.
Qed.

(** The [with] statement, on a path and a text. *)
Lemma with_open_w_write (E : Env) (w : World) (path content : string) :
  with_open_w E path (fun f => write E f content) w =
  match open_fault E (step w) with
  | Some errno => (Raise (OSError errno), tick w)
  | None =>
      match write_fault E (S (step w)) with
      | Some (k, errno) =>
          (Raise (OSError errno),
           mkWorld (S (S (step w)))
                   (<[path := substring 0 k content]> (files w))
                   (handles w) (stdout w))
      | None =>
          (Ok (String.length content),
           mkWorld (S (S (step w))) (<[path := content]> (files w))
                   (handles w) (stdout w))
      end
  end.
Proof.
  unfold with_open_w, open_w.
  destruct (open_fault E (step w)) as [errno | ]; [reflexivity | ].
  assert (Hfresh : handles w !! fresh (dom (handles w)) = None)
    by apply not_elem_of_dom, is_fresh.
  unfold write, close; cbn [handles files step stdout].
  rewrite lookup_insert_eq.
  destruct (write_fault E (S (step w))) as [[k errno] | ];
    cbn [handles files step stdout];
    now rewrite alter_insert_eq, append_nil_l, delete_insert_id.
Qed.

Section Call.
Variable E : Env.
Variable w : World.

(** The whole call: what it returns and the world it leaves, by the
    failures the environment decides. *)
Lemma create_hello_world_file_eq :
  create_hello_world_file E w =
  match open_fault E (open_step w) with
  | Some errno =>
      (Raise (OSError errno),
       mkWorld (S (open_step w)) (files w) (handles w) (stdout w))
  | None =>
      match write_fault E (write_step w) with
      | Some (k, errno) =>
          (Raise (OSError errno),
           mkWorld (S (write_step w))
                   (<[filename_at (T1 E w) :=
                        substring 0 k (content_at (T2 E w))]> (files w))
                   (handles w) (stdout w))
      | None =>
          (Ok (filename_at (T1 E w)),
           mkWorld (S (write_step w))
                   (<[filename_at (T1 E w) := content_at (T2 E w)]>
                      (files w))
                   (handles w) (stdout w))
      end
  end.
Proof.
  unfold create_hello_world_file, bind, datetime_now, ret.
  rewrite with_open_w_write. cbn [tick step files handles stdout].
  unfold open_step, write_step, T1, T2.
  destruct (open_fault E (S (S (step w)))) as [errno | ]; [reflexivity | ].
  destruct (write_fault E (S (S (S (step w))))) as [[k errno] | ];
    reflexivity.
Qed.

Lemma create_hello_world_file_ok (filename : string) (w' : World) :
  create_hello_world_file E w = (Ok filename, w') ->
  no_fault E w /\
  filename = filename_at (T1 E w) /\
  w' = mkWorld (S (write_step w))
               (<[filename := content_at (T2 E w)]> (files w))
               (handles w) (stdout w).
Proof.
  rewrite create_hello_world_file_eq. unfold no_fault.
  destruct (open_fault E (open_step w)) as [errno | ];
    [discriminate | ].
  destruct (write_fault E (write_step w)) as [[k errno] | ];
    [discriminate | ].
  intros [= <- <-]. auto.
Qed.

Lemma create_hello_world_file_no_fault :
  no_fault E w ->
  create_hello_world_file E w =
  (Ok (filename_at (T1 E w)),
   mkWorld (S (write_step w))
           (<[filename_at (T1 E w) := content_at (T2 E w)]> (files w))
           (handles w) (stdout w)).
Proof.
  intros [Hopen Hwrite].
  now rewrite create_hello_world_file_eq, Hopen, Hwrite.
Qed.

End Call.

(** *** The file name (lines 8-9) *)


Lemma filename_at_no_LF (t : datetime) : count_char LF (filename_at t) = 0.
Proof.
  unfold filename_at. now rewrite !count_char_append, file_stamp_no_LF.
Qed.

(** *** The content (lines 11-16) *)



Lemma content_at_ends (t : datetime) :
  content_at t =
  (heading +:+ nl +:+ nl +:+ generated_line t +:+ nl +:+ nl) +:+
  greeting +:+ nl.
Proof.
  unfold content_at, generated_line, heading, greeting.
  now rewrite !append_assoc.
Qed.

(** *** The process *)

Lemma run_script_eq (E : Env) (w : World) :
  run_script E w =
  match create_hello_world_file E w with
  | (Ok filename, w') =>
      mkOutcome 0 None
        (mkWorld (step w') (files w') (handles w')
                 (stdout w' +:+ ("Created file: " +:+ filename) +:+ nl))
  | (Raise e, w') => mkOutcome 1 (Some e) w'
  end.
Proof.
  unfold run_script, main, bind, print.
  now destruct (create_hello_world_file E w) as [[filename | e] w'].
Qed.

End HelloFacts.

(* ===================================================================== *)
(** ** Facts about names, contents and calendar seconds *)
(* ===================================================================== *)

Module CalendarFacts.
Import Text DateTime Runtime Hello Calendar.
Import TextFacts OrderFacts DateTimeFacts HelloFacts.

Lemma same_second_refl (t : datetime) : same_second t t.
Proof. unfold same_second. auto 10. Qed.

Lemma compare_seconds_Eq (t1 t2 : datetime) :
  compare_seconds t1 t2 = Eq <-> same_second t1 t2.
Proof.
  unfold compare_seconds, same_second.
  rewrite !lex_Eq_iff, !Z.compare_eq_iff. reflexivity.
Qed.

(** The name and the content only depend on the calendar second. *)
Lemma same_second_filename_at (t1 t2 : datetime) :
  same_second t1 t2 -> filename_at t1 = filename_at t2.
Proof.
  intros (Hy & Hm & Hd & Hh & Hmi & Hs).
  unfold filename_at. rewrite !strftime_file_stamp.
  now rewrite Hy, Hm, Hd, Hh, Hmi, Hs.
Qed.

Lemma same_second_content_at (t1 t2 : datetime) :
  same_second t1 t2 -> content_at t1 = content_at t2.
Proof.
  intros (Hy & Hm & Hd & Hh & Hmi & Hs).
  unfold content_at. rewrite !strftime_display_stamp.
  now rewrite Hy, Hm, Hd, Hh, Hmi, Hs.
Qed.

Section TwoReadings.
Variables t1 t2 : datetime.
Hypothesis Ht1 : valid_datetime t1.
Hypothesis Ht2 : valid_datetime t2.

(** The length of the name and of the content follows the number of
    digits of the year. *)
Lemma length_filename_at :
  String.length (filename_at t1) = 26 + String.length (decimal (year t1)).
Proof.
  destruct (valid_field_bounds t1 Ht1) as (? & ? & ? & ? & ? & ?).
  unfold filename_at. rewrite strftime_file_stamp.
  rewrite !length_append, !length_zero_pad by assumption.
  cbn [String.length]. lia.
Qed.

Lemma length_content_at :
  String.length (content_at t1) = 72 + String.length (decimal (year t1)).
Proof.
  destruct (valid_field_bounds t1 Ht1) as (? & ? & ? & ? & ? & ?).
  unfold content_at, nl. rewrite strftime_display_stamp.
  rewrite !length_append, !length_zero_pad by assumption.
  cbn [String.length]. lia.
Qed.

Section SameWidth.
(** Years written with as many digits. *)
Hypothesis Hwidth :
  String.length (decimal (year t1)) = String.length (decimal (year t2)).

Ltac by_parts :=
  destruct (valid_field_bounds t1 Ht1) as (? & ? & ? & ? & ? & ?);
  destruct (valid_field_bounds t2 Ht2) as (? & ? & ? & ? & ? & ?);
  repeat rewrite string_compare_append
    by first [ reflexivity
             | exact Hwidth
             | now rewrite !length_zero_pad by assumption ];
  rewrite compare_decimal by first [assumption | exact Hwidth];
  rewrite !compare_zero_pad by assumption;
  rewrite ?string_compare_refl, ?lex_Eq_r; cbn [lex];
  reflexivity.

Lemma compare_filename_at :
  String.compare (filename_at t1) (filename_at t2) = compare_seconds t1 t2.
Proof.
  unfold filename_at. rewrite !strftime_file_stamp, !append_assoc.
  unfold compare_seconds. by_parts.
Qed.

Lemma compare_content_at :
  String.compare (content_at t1) (content_at t2) = compare_seconds t1 t2.
Proof.
  unfold content_at. rewrite !strftime_display_stamp, !append_assoc.
  unfold compare_seconds. by_parts.
Qed.

End SameWidth.

End TwoReadings.

(** Equal names, and equal contents, come from the same calendar second
    only: their length gives the number of digits of the year, and then
    every field can be read at its place. *)
Lemma filename_at_eq_iff (t1 t2 : datetime) :
  valid_datetime t1 -> valid_datetime t2 ->
  filename_at t1 = filename_at t2 <-> same_second t1 t2.
Proof.
  intros Ht1 Ht2. split; [ | apply same_second_filename_at].
  intros Heq. apply compare_seconds_Eq.
  assert (Hwidth :
    String.length (decimal (year t1)) = String.length (decimal (year t2))).
  { pose proof (length_filename_at t1 Ht1) as H1.
    pose proof (length_filename_at t2 Ht2) as H2.
    rewrite Heq in H1. lia. }
  rewrite <- (compare_filename_at t1 t2 Ht1 Ht2 Hwidth), Heq.
  apply string_compare_refl.
Qed.

Lemma content_at_eq_iff (t1 t2 : datetime) :
  valid_datetime t1 -> valid_datetime t2 ->
  content_at t1 = content_at t2 <-> same_second t1 t2.
Proof.
  intros Ht1 Ht2. split; [ | apply same_second_content_at].
  intros Heq. apply compare_seconds_Eq.
  assert (Hwidth :
    String.length (decimal (year t1)) = String.length (decimal (year t2))).
  { pose proof (length_content_at t1 Ht1) as H1.
    pose proof (length_content_at t2 Ht2) as H2.
    rewrite Heq in H1. lia. }
  rewrite <- (compare_content_at t1 t2 Ht1 Ht2 Hwidth), Heq.
  apply string_compare_refl.
Qed.

End CalendarFacts.

(* ===================================================================== *)
(** ** The model at work *)
(* ===================================================================== *)

Module Runs.
Import Text DateTime Runtime Hello Scenarios.

Example strftime_file_example :
  strftime "%Y%m%d_%H%M%S" t_example = "20240315_103045".
Proof. reflexivity. Qed.

Example strftime_display_example :
  strftime "%Y-%m-%d %H:%M:%S" t_example = "2024-03-15 10:30:45".
Proof. reflexivity. Qed.

Example strftime_pads_small_fields :
  strftime "%Y-%m-%d %H:%M:%S" (mkDateTime 2024 1 2 3 4 5 0)
  = "2024-01-02 03:04:05".
Proof. reflexivity. Qed.

Example strftime_short_year :
  strftime "%Y-%m-%d %H:%M:%S" (mkDateTime 987 1 2 3 4 5 0)
  = "987-01-02 03:04:05"
  /\ strftime "%Y%m%d_%H%M%S" (mkDateTime 1 1 1 0 0 0 0) = "10101_000000".
Proof. split; reflexivity. Qed.

Example strftime_copies_text :
  strftime "at %H o'clock, 100%%" t_example = "at 10 o'clock, 100%".
Proof. reflexivity. Qed.

Example splitlines_example :
  splitlines ("a" +:+ nl +:+ nl +:+ "b" +:+ nl +:+ "c") = ["a"; ""; "b"; "c"].
Proof. reflexivity. Qed.

Example call_returns_name :
  fst (create_hello_world_file E_fixed w_empty) = Ok example_filename.
Proof. reflexivity. Qed.

Example call_writes_content :
  files (snd (create_hello_world_file E_fixed w_empty))
  = {[example_filename := example_content]}.
Proof. reflexivity. Qed.

Example run_prints_name :
  stdout (final (run_script E_fixed w_empty))
  = "Created file: hello_world_20240315_103045.md" +:+ nl.
Proof. reflexivity. Qed.

Example run_in_read_only_directory :
  run_script E_read_only w_empty
  = mkOutcome 1 (Some (OSError EACCES)) (mkWorld 3 ∅ ∅ "").
Proof. reflexivity. Qed.

Example run_on_full_disk :
  run_script E_disk_full w_empty
  = mkOutcome 1 (Some (OSError ENOSPC))
              (mkWorld 4 {[example_filename := "# Hel"]} ∅ "").
Proof. reflexivity. Qed.

End Runs.

(* ===================================================================== *)
(** ** Properties of the script *)
(* ===================================================================== *)

Module Properties.
Import Text DateTime Runtime Hello TextFacts DateTimeFacts HelloFacts.
Import Scenarios Calendar Later.

(** C1.  When both clock readings of a call show 2024-03-15 10:30:45 and
    neither [open] nor [write] fails, the call returns
    [hello_world_20240315_103045.md] and the file of that name holds
    exactly the five lines of the example, each ended by a line feed:
    the heading, an empty line, the generated-at line, an empty line,
    the greeting. *)
Theorem example_scenario (E : Env) (w : World) (us1 us2 : Z) :
  T1 E w = mkDateTime 2024 3 15 10 30 45 us1 ->
  T2 E w = mkDateTime 2024 3 15 10 30 45 us2 ->
  no_fault E w ->
  exists w',
    create_hello_world_file E w = (Ok example_filename, w') /\
    files w' !! example_filename = Some example_content /\
    splitlines example_content =
    ["# Hello World"; ""; "Generated at: 2024-03-15 10:30:45"; "";
     "**Message:** Hello World!"].
Proof.
  intros H1 H2 Hok.
  rewrite (create_hello_world_file_no_fault E w Hok), H1, H2.
  eexists. split; [reflexivity | ]. cbn [files].
  split; [apply lookup_insert_eq | reflexivity].
Qed.

Lemma example_scenario_witness :
  exists w',
    create_hello_world_file E_fixed w_empty = (Ok example_filename, w') /\
    files w' !! example_filename = Some example_content /\
    splitlines example_content =
    ["# Hello World"; ""; "Generated at: 2024-03-15 10:30:45"; "";
     "**Message:** Hello World!"].
Proof.
  apply (example_scenario E_fixed w_empty 0 0);
    [reflexivity | reflexivity | split; reflexivity].
Defined.







(** C4.  After a call that returns, the file named as the returned
    name exists and holds exactly the content built from the second
    clock reading, the whole text and nothing else; the other files of
    the directory are as they were. *)
Theorem file_holds_content
    (E : Env) (w : World) (filename : string) (w' : World) :
  create_hello_world_file E w = (Ok filename, w') ->
  files w' !! filename = Some (content_at (T2 E w)) /\
  forall other, other <> filename -> files w' !! other = files w !! other.
Proof.
  intros Hrun.
  apply create_hello_world_file_ok in Hrun as (_ & _ & ->). cbn [files].
  split; [apply lookup_insert_eq | ].
  intros other Hother. now apply lookup_insert_ne.
Qed.

Lemma file_holds_content_witness :
  files (snd (create_hello_world_file E_fixed w_empty)) !! example_filename
  = Some (content_at (T2 E_fixed w_empty)) /\
  forall other,
    other <> example_filename ->
    files (snd (create_hello_world_file E_fixed w_empty)) !! other
    = files w_empty !! other.
Proof.
  apply (file_holds_content E_fixed w_empty example_filename
           (snd (create_hello_world_file E_fixed w_empty))).
  reflexivity.
Defined.

(** C5.  When two calls in a row both return and their first clock
    readings fall in the same calendar second, they return the same
    file name, and the file ends up with the content of the second call
    only: the directory is as if the first call had never written. *)
Theorem same_second_overwrites
    (E : Env) (w w1 w2 : World) (filename1 filename2 : string) :
  create_hello_world_file E w = (Ok filename1, w1) ->
  create_hello_world_file E w1 = (Ok filename2, w2) ->
  strftime "%Y%m%d_%H%M%S" (T1 E w) = strftime "%Y%m%d_%H%M%S" (T1 E w1) ->
  filename1 = filename2 /\
  files w2 !! filename2 = Some (content_at (T2 E w1)) /\
  files w2 = <[filename2 := content_at (T2 E w1)]> (files w).
Proof.
  intros Hrun1 Hrun2 Hsame.
  apply create_hello_world_file_ok in Hrun1 as (_ & -> & ->).
  apply create_hello_world_file_ok in Hrun2 as (_ & -> & ->).
  cbn [files]. unfold filename_at. rewrite Hsame.
  split; [reflexivity | ].
  split; [apply lookup_insert_eq | apply insert_insert_eq].
Qed.

Lemma same_second_overwrites_witness :
  example_filename = example_filename /\
  files (snd (create_hello_world_file E_next_second
                (snd (create_hello_world_file E_next_second w_empty))))
    !! example_filename
  = Some (content_at t_next) /\
  files (snd (create_hello_world_file E_next_second
                (snd (create_hello_world_file E_next_second w_empty))))
  = <[example_filename := content_at t_next]> (files w_empty).
Proof.
  apply (same_second_overwrites E_next_second w_empty
           (snd (create_hello_world_file E_next_second w_empty))
           (snd (create_hello_world_file E_next_second
                   (snd (create_hello_world_file E_next_second w_empty))))
           example_filename example_filename);
    reflexivity.
Defined.

(** C6, as the specification has it (the write is all or nothing: a
    call whose write fails leaves the files as if nothing had been
    written), does not hold.  With an empty directory and a disk that
    fills up after five characters, the call raises [OSError] and leaves
    a file that did not exist before, holding the first five characters
    of the content.  With a file of that name in the directory and a
    write that fails at once, the call raises [OSError] and the file is
    empty: ['w'] truncated it when it was opened. *)
Lemma failed_write_leaves_partial_file :
  (fst (create_hello_world_file E_disk_full w_empty)
   = Raise (OSError ENOSPC) /\
   files w_empty !! example_filename = None /\
   files (snd (create_hello_world_file E_disk_full w_empty))
     !! example_filename = Some "# Hel") /\
  (fst (create_hello_world_file E_write_refused w_existing)
   = Raise (OSError ENOSPC) /\
   files w_existing !! example_filename = Some "earlier content" /\
   files (snd (create_hello_world_file E_write_refused w_existing))
     !! example_filename = Some "") /\
  ~ (forall E w e w',
        create_hello_world_file E w = (Raise e, w') -> files w' = files w).
Proof.
  split; [repeat split | ]. split; [repeat split | ].
  intros Hclaim.
  specialize (Hclaim E_disk_full w_empty (OSError ENOSPC)
                (snd (create_hello_world_file E_disk_full w_empty))
                eq_refl).
  assert (Hlook :
    files (snd (create_hello_world_file E_disk_full w_empty))
      !! example_filename = files w_empty !! example_filename)
    by now rewrite Hclaim.
  discriminate Hlook.
Qed.

(** C6, amended.  A call that fails raises [OSError].  When it is
    [open] that fails, the files are as they were.  When [open]
    succeeds and [write] fails, the file of the call exists and holds a
    prefix of the content (possibly empty), whatever it held before,
    and the other files are as they were. *)
Theorem failed_call_files (E : Env) (w : World) (e : exn) (w' : World) :
  create_hello_world_file E w = (Raise e, w') ->
  (exists errno,
      open_fault E (open_step w) = Some errno /\
      e = OSError errno /\
      files w' = files w)
  \/
  (exists k errno,
      open_fault E (open_step w) = None /\
      write_fault E (write_step w) = Some (k, errno) /\
      e = OSError errno /\
      files w' =
      <[filename_at (T1 E w) := substring 0 k (content_at (T2 E w))]>
        (files w) /\
      String.prefix (substring 0 k (content_at (T2 E w)))
                    (content_at (T2 E w)) = true).
Proof.
  rewrite create_hello_world_file_eq.
  destruct (open_fault E (open_step w)) as [errno | ].
  - intros [= <- <-]. left. exists errno. auto.
  - destruct (write_fault E (write_step w)) as [[k errno] | ];
      [ | discriminate].
    intros [= <- <-]. right. exists k, errno.
    repeat split. apply prefix_substring.
Qed.

Lemma failed_call_files_witness :
  (exists errno,
      open_fault E_disk_full (open_step w_empty) = Some errno /\
      OSError ENOSPC = OSError errno /\
      files (snd (create_hello_world_file E_disk_full w_empty))
      = files w_empty)
  \/
  (exists k errno,
      open_fault E_disk_full (open_step w_empty) = None /\
      write_fault E_disk_full (write_step w_empty) = Some (k, errno) /\
      OSError ENOSPC = OSError errno /\
      files (snd (create_hello_world_file E_disk_full w_empty)) =
      <[filename_at (T1 E_disk_full w_empty) :=
          substring 0 k (content_at (T2 E_disk_full w_empty))]>
        (files w_empty) /\
      String.prefix (substring 0 k (content_at (T2 E_disk_full w_empty)))
                    (content_at (T2 E_disk_full w_empty)) = true).
Proof.
  apply (failed_call_files E_disk_full w_empty (OSError ENOSPC)
           (snd (create_hello_world_file E_disk_full w_empty))).
  reflexivity.
Defined.

(** C7.  When [open] or [write] fails, the [OSError] is caught nowhere:
    it is the uncaught exception of the process, which ends with exit
    status 1 and has printed nothing; when neither fails, the exit
    status is 0. *)
Theorem failure_ends_process (E : Env) (w : World) :
  let o := run_script E w in
  match open_fault E (open_step w), write_fault E (write_step w) with
  | Some errno, _ | None, Some (_, errno) =>
      uncaught o = Some (OSError errno) /\
      exit_status o = 1%Z /\ exit_status o <> 0%Z /\
      stdout (final o) = stdout w
  | None, None =>
      uncaught o = None /\ exit_status o = 0%Z
  end.
Proof.
  cbv zeta. rewrite run_script_eq, create_hello_world_file_eq.
  destruct (open_fault E (open_step w)) as [errno | ];
    [now cbn | ].
  destruct (write_fault E (write_step w)) as [[k errno] | ]; now cbn.
Qed.

(** C8.  A run that ends with exit status 0 has added exactly one line
    to standard output: [Created file: ] followed by the file name the
    call returned. *)
Theorem prints_one_line (E : Env) (w : World) :
  exit_status (run_script E w) = 0%Z ->
  exists filename,
    fst (create_hello_world_file E w) = Ok filename /\
    stdout (final (run_script E w)) =
    stdout w +:+ ("Created file: " +:+ filename) +:+ nl /\
    splitlines (("Created file: " +:+ filename) +:+ nl) =
    ["Created file: " +:+ filename].
Proof.
  rewrite run_script_eq.
  destruct (create_hello_world_file E w) as [[filename | e] w'] eqn:Hrun;
    [ | discriminate].
  intros _. exists filename.
  apply create_hello_world_file_ok in Hrun as (_ & -> & ->).
  cbn [fst final stdout]. repeat split.
  unfold nl. rewrite splitlines_line; [reflexivity | ].
  now rewrite count_char_append, filename_at_no_LF.
Qed.

Lemma prints_one_line_witness :
  exists filename,
    fst (create_hello_world_file E_fixed w_empty) = Ok filename /\
    stdout (final (run_script E_fixed w_empty)) =
    stdout w_empty +:+ ("Created file: " +:+ filename) +:+ nl /\
    splitlines (("Created file: " +:+ filename) +:+ nl) =
    ["Created file: " +:+ filename].
Proof. apply (prints_one_line E_fixed w_empty). reflexivity. Defined.

(** C9.  Whatever happens to [open] and [write], when the call is over
    the file descriptors in use are those that were in use before it:
    the descriptor the call opens has been released, on the normal path
    and when [write] raises. *)
Theorem handle_released (E : Env) (w : World) :
  let w' := snd (create_hello_world_file E w) in
  handles w' = handles w /\
  handles w' !! fresh (dom (handles w)) = None.
Proof.
  cbv zeta.
  assert (Hsame : handles (snd (create_hello_world_file E w)) = handles w).
  { unfold create_hello_world_file, bind, datetime_now, ret.
    pose proof (with_open_w_releases E (filename_at (now_at E (step w)))
                  (fun f => write E f (content_at (now_at E (step (tick w)))))
                  (tick (tick w))
                  (fun f w1 => write_keeps_handles E f _ w1)) as Hwith.
    destruct (with_open_w E _ _ (tick (tick w))) as [[n | e] w3];
      exact Hwith. }
  split; [exact Hsame | ].
  rewrite Hsame. apply not_elem_of_dom, is_fresh.
Qed.

(** C10.  The content of every call ends with the greeting line and its
    line feed: the last character of the content is a line feed, and so
    is the last character of the file that a call which returns has
    written. *)
Theorem content_ends_with_newline (E : Env) (w : World) :
  let content := content_at (T2 E w) in
  last_char content = Some LF /\
  (exists before,
      content = before +:+ "**Message:** Hello World!" +:+ nl) /\
  forall filename w',
    create_hello_world_file E w = (Ok filename, w') ->
    files w' !! filename = Some content.
Proof.
  cbv zeta. split; [ | split].
  - rewrite content_at_ends, <- (append_assoc _ greeting nl). unfold nl.
    now rewrite last_char_append_cons.
  - rewrite content_at_ends. eexists. reflexivity.
  - intros filename w' Hrun.
    apply create_hello_world_file_ok in Hrun as (_ & _ & ->).
    apply lookup_insert_eq.
Qed.

Lemma content_ends_with_newline_witness :
  last_char (content_at (T2 E_fixed w_empty)) = Some LF /\
  files (snd (create_hello_world_file E_fixed w_empty)) !! example_filename
  = Some (content_at (T2 E_fixed w_empty)).
Proof.
  destruct (content_ends_with_newline E_fixed w_empty) as (Hlast & _ & Hfile).
  split; [exact Hlast | ].
  apply (Hfile example_filename
           (snd (create_hello_world_file E_fixed w_empty))).
  reflexivity.
Defined.

End Properties.

(* ===================================================================== *)
(** ** Further properties of the script *)
(* ===================================================================== *)

Module Further.
Import Text DateTime Runtime Hello Scenarios Calendar Later.
Import TextFacts OrderFacts DateTimeFacts HelloFacts CalendarFacts.

(** X1.  From the year 1000 on, file names sort as the times they were
    made at: when the first clock readings of two calls both lie in the
    year 1000 or later, the names the calls return compare, as texts,
    the way the readings compare to the second.  (Below the year 1000
    the year has fewer digits and the order of the names is another.) *)
Theorem names_sort_by_time
    (E E' : Env) (w v w' v' : World) (filename filename' : string) :
  valid_datetime (T1 E w) ->
  valid_datetime (T1 E' v) ->
  (1000 <= year (T1 E w))%Z ->
  (1000 <= year (T1 E' v))%Z ->
  create_hello_world_file E w = (Ok filename, w') ->
  create_hello_world_file E' v = (Ok filename', v') ->
  String.compare filename filename' = compare_seconds (T1 E w) (T1 E' v).
Proof.
  intros Ht Ht' Hyear Hyear' Hrun Hrun'.
  apply create_hello_world_file_ok in Hrun as (_ & -> & _).
  apply create_hello_world_file_ok in Hrun' as (_ & -> & _).
  apply compare_filename_at; [exact Ht | exact Ht' | ].
  now rewrite (length_year _ Ht Hyear), (length_year _ Ht' Hyear').
Qed.

Lemma names_sort_by_time_witness :
  String.compare example_filename next_filename
  = compare_seconds (T1 E_fixed w_empty)
      (T1 E_second_per_call (snd (create_hello_world_file E_fixed w_empty))).
Proof.
  apply (names_sort_by_time E_fixed E_second_per_call
           w_empty (snd (create_hello_world_file E_fixed w_empty))
           (snd (create_hello_world_file E_fixed w_empty))
           (snd (create_hello_world_file E_second_per_call
                   (snd (create_hello_world_file E_fixed w_empty))))).
  - unfold valid_datetime. vm_compute. repeat split; discriminate.
  - unfold valid_datetime. vm_compute. repeat split; discriminate.
  - vm_compute. discriminate.
  - vm_compute. discriminate.
  - reflexivity.
  - reflexivity.
Defined.

(** X2.  Two calls return the same file name exactly when their first
    clock readings fall in the same calendar second. *)
Theorem same_name_iff_same_second
    (E E' : Env) (w v w' v' : World) (filename filename' : string) :
  valid_datetime (T1 E w) ->
  valid_datetime (T1 E' v) ->
  create_hello_world_file E w = (Ok filename, w') ->
  create_hello_world_file E' v = (Ok filename', v') ->
  filename = filename' <-> same_second (T1 E w) (T1 E' v).
Proof.
  intros Ht Ht' Hrun Hrun'.
  apply create_hello_world_file_ok in Hrun as (_ & -> & _).
  apply create_hello_world_file_ok in Hrun' as (_ & -> & _).
  now apply filename_at_eq_iff.
Qed.

Lemma same_name_iff_same_second_witness :
  example_filename = next_filename <->
  same_second (T1 E_fixed w_empty)
    (T1 E_second_per_call (snd (create_hello_world_file E_fixed w_empty))).
Proof.
  apply (same_name_iff_same_second E_fixed E_second_per_call
           w_empty (snd (create_hello_world_file E_fixed w_empty))
           (snd (create_hello_world_file E_fixed w_empty))
           (snd (create_hello_world_file E_second_per_call
                   (snd (create_hello_world_file E_fixed w_empty))))).
  - unfold valid_datetime. vm_compute. repeat split; discriminate.
  - unfold valid_datetime. vm_compute. repeat split; discriminate.
  - reflexivity.
  - reflexivity.
Defined.

(** X3.  When two calls in a row both return and their first clock
    readings fall in different calendar seconds, the names differ and
    both files are there afterwards, each with the content of its own
    call. *)
Theorem different_seconds_keep_both_files
    (E : Env) (w w1 w2 : World) (filename1 filename2 : string) :
  valid_datetime (T1 E w) ->
  valid_datetime (T1 E w1) ->
  create_hello_world_file E w = (Ok filename1, w1) ->
  create_hello_world_file E w1 = (Ok filename2, w2) ->
  ~ same_second (T1 E w) (T1 E w1) ->
  filename1 <> filename2 /\
  files w2 !! filename1 = Some (content_at (T2 E w)) /\
  files w2 !! filename2 = Some (content_at (T2 E w1)).
Proof.
  intros Ht Ht1 Hrun1 Hrun2 Hdiff.
  pose proof (create_hello_world_file_ok _ _ _ _ Hrun1) as (_ & Hname1 & Hw1).
  pose proof (create_hello_world_file_ok _ _ _ _ Hrun2) as (_ & Hname2 & Hw2).
  assert (Hne : filename1 <> filename2).
  { rewrite Hname1, Hname2. intros Heq. apply Hdiff.
    now apply filename_at_eq_iff. }
  split; [exact Hne | ].
  rewrite Hw2. cbn [files]. split; [ | apply lookup_insert_eq].
  rewrite lookup_insert_ne by congruence.
  rewrite Hw1. cbn [files]. apply lookup_insert_eq.
Qed.

Lemma different_seconds_keep_both_files_witness :
  example_filename <> next_filename /\
  files (snd (create_hello_world_file E_second_per_call
                (snd (create_hello_world_file E_second_per_call w_empty))))
    !! example_filename
  = Some (content_at (T2 E_second_per_call w_empty)) /\
  files (snd (create_hello_world_file E_second_per_call
                (snd (create_hello_world_file E_second_per_call w_empty))))
    !! next_filename
  = Some (content_at
            (T2 E_second_per_call
               (snd (create_hello_world_file E_second_per_call w_empty)))).
Proof.
  apply (different_seconds_keep_both_files E_second_per_call w_empty
           (snd (create_hello_world_file E_second_per_call w_empty))
           (snd (create_hello_world_file E_second_per_call
                   (snd (create_hello_world_file E_second_per_call w_empty))))
           example_filename next_filename).
  - unfold valid_datetime. vm_compute. repeat split; discriminate.
  - unfold valid_datetime. vm_compute. repeat split; discriminate.
  - reflexivity.
  - reflexivity.
  - unfold same_second. vm_compute. intros (_ & _ & _ & _ & _ & Hs).
    discriminate Hs.
Defined.

(** X4.  The file of a call that returns shows, in its generated-at
    line, the time its name shows exactly when the two clock readings of
    the call fall in the same calendar second: the content is the one
    the first reading would give if and only if they do. *)
Theorem body_agrees_with_name_iff
    (E : Env) (w : World) (filename : string) (w' : World) :
  valid_datetime (T1 E w) ->
  valid_datetime (T2 E w) ->
  create_hello_world_file E w = (Ok filename, w') ->
  files w' !! filename = Some (content_at (T1 E w)) <->
  same_second (T1 E w) (T2 E w).
Proof.
  intros Ht1 Ht2 Hrun.
  apply create_hello_world_file_ok in Hrun as (_ & -> & ->).
  cbn [files]. rewrite lookup_insert_eq.
  rewrite <- (content_at_eq_iff _ _ Ht1 Ht2).
  split.
  - intros Heq. apply (inj Some) in Heq. symmetry. exact Heq.
  - intros Heq. now rewrite Heq.
Qed.

Lemma body_agrees_with_name_iff_witness :
  files (snd (create_hello_world_file E_between_readings w_empty))
    !! example_filename
  = Some (content_at (T1 E_between_readings w_empty)) <->
  same_second (T1 E_between_readings w_empty) (T2 E_between_readings w_empty).
Proof.
  apply (body_agrees_with_name_iff E_between_readings w_empty
           example_filename
           (snd (create_hello_world_file E_between_readings w_empty))).
  - unfold valid_datetime. vm_compute. repeat split; discriminate.
  - unfold valid_datetime. vm_compute. repeat split; discriminate.
  - reflexivity.
Defined.

(** X5.  Whether it returns or raises, a call prints nothing, removes no
    file, and leaves every file but its own exactly as it was. *)
Theorem call_touches_only_its_file (E : Env) (w : World) :
  let w' := snd (create_hello_world_file E w) in
  stdout w' = stdout w /\
  dom (files w) ⊆ dom (files w') /\
  forall other,
    other <> filename_at (T1 E w) -> files w' !! other = files w !! other.
Proof.
  cbv zeta. rewrite create_hello_world_file_eq.
  destruct (open_fault E (open_step w)) as [errno | ];
    [cbn [snd stdout files]; auto | ].
  destruct (write_fault E (write_step w)) as [[k errno] | ];
    cbn [snd stdout files];
    (split; [reflexivity | ]; split;
     [rewrite dom_insert_L; set_solver
     | intros other Hother; now apply lookup_insert_ne]).
Qed.

Lemma call_touches_only_its_file_witness :
  stdout (snd (create_hello_world_file E_disk_full w_notes)) = stdout w_notes /\
  files (snd (create_hello_world_file E_disk_full w_notes)) !! "notes.txt"
  = files w_notes !! "notes.txt".
Proof.
  destruct (call_touches_only_its_file E_disk_full w_notes)
    as (Hout & _ & Hframe).
  split; [exact Hout | ].
  apply (Hframe "notes.txt"). vm_compute. discriminate.
Defined.

(** X6.  A run that ends with exit status 0 reports a file that is
    there: the name on its line of output is the name of a file that
    holds the content of the call, and no descriptor is left open. *)
Theorem report_names_written_file (E : Env) (w : World) :
  exit_status (run_script E w) = 0%Z ->
  exists filename,
    stdout (final (run_script E w)) =
    stdout w +:+ ("Created file: " +:+ filename) +:+ nl /\
    files (final (run_script E w)) !! filename
    = Some (content_at (T2 E w)) /\
    handles (final (run_script E w)) = handles w.
Proof.
  rewrite run_script_eq.
  destruct (create_hello_world_file E w) as [[filename | e] w'] eqn:Hrun;
    [ | discriminate].
  intros _. exists filename.
  apply create_hello_world_file_ok in Hrun as (_ & _ & ->).
  cbn [final stdout files handles].
  repeat split. apply lookup_insert_eq.
Qed.

Lemma report_names_written_file_witness :
  exists filename,
    stdout (final (run_script E_fixed w_notes)) =
    stdout w_notes +:+ ("Created file: " +:+ filename) +:+ nl /\
    files (final (run_script E_fixed w_notes)) !! filename
    = Some (content_at (T2 E_fixed w_notes)) /\
    handles (final (run_script E_fixed w_notes)) = handles w_notes.
Proof. apply (report_names_written_file E_fixed w_notes). reflexivity. Defined.

(** X7.  The name a call returns never contains a path separator,
    whatever the clock shows: the file is made in the working directory
    and nowhere else. *)
Theorem name_has_no_separator
    (E : Env) (w : World) (filename : string) (w' : World) :
  create_hello_world_file E w = (Ok filename, w') ->
  count_char "/" filename = 0 /\ count_char "\" filename = 0.
Proof.
  intros Hrun.
  apply create_hello_world_file_ok in Hrun as (_ & -> & _).
  unfold filename_at. rewrite strftime_file_stamp.
  rewrite !count_char_append.
  rewrite !(all_digits_count _ (zero_pad _ _))
    by first [reflexivity | apply all_digits_zero_pad].
  rewrite !(all_digits_count _ (decimal _))
    by first [reflexivity | apply all_digits_decimal].
  split; reflexivity.
Qed.

Lemma name_has_no_separator_witness :
  count_char "/" example_filename = 0 /\ count_char "\" example_filename = 0.
Proof.
  apply (name_has_no_separator E_fixed w_empty example_filename
           (snd (create_hello_world_file E_fixed w_empty))).
  reflexivity.
Defined.

End Further.
